(** * pyrogram/types/messages_and_media/reaction.py

    A shallow embedding of the reaction types of Pyrogram: the classes
    [Reaction], [ReactionType] (with its three subclasses) and
    [ReactionCount], their constructors, their [_parse] static methods and
    the [write] methods, followed by the properties the specification
    states about them.

    Python objects are modelled as a class tag together with the instance
    dictionary ([__dict__]), a finite map from attribute names to values.
    Python functions return in a small exception monad: a function either
    returns a value or raises. *)

From stdpp Require Import gmap strings.

Set Warnings "-register-all".
Open Scope string_scope.

(** ** Values *)

(** The classes that can reach this module. The first group is defined by
    reaction.py itself ([cls_Object] is its imported base class), the second
    group are the wire classes of [raw.types] it dispatches on, and
    [cls_other] stands for every class the module does not know about. *)
Inductive class :=
| cls_Object
| cls_Reaction
| cls_ReactionType
| cls_ReactionTypeEmoji
| cls_ReactionTypeCustomEmoji
| cls_ReactionTypePaid
| cls_ReactionCount
| raw_ReactionEmpty
| raw_ReactionEmoji
| raw_ReactionCustomEmoji
| raw_ReactionPaid
| raw_ReactionCount
| cls_other (qualname : string).

#[global] Instance class_eq_dec : EqDecision class.
Proof. solve_decision. Defined.

(** Python values: [None], booleans, (unbounded) integers, strings and
    instances with their attribute dictionary. *)
Inductive value :=
| VNone
| VBool (b : bool)
| VInt (z : Z)
| VStr (s : string)
| VObj (c : class) (d : gmap string value).

(** Keyword arguments of a call, in the order they are written. *)
Definition kwargs := list (string * value).

(** ** Exceptions *)

Inductive exn :=
| NameError (name : string)
| AttributeError (attr : string)
| TypeError (what : string)
| NotImplementedError.

Inductive result (A : Type) :=
| Return (a : A)
| Raise (e : exn).
Arguments Return {A} a.
Arguments Raise {A} e.

#[global] Instance result_ret : MRet result := @Return.
#[global] Instance result_bind : MBind result := λ A B f m,
  match m with
  | Return a => f a
  | Raise e => Raise e
  end.

(** ** Attribute access, [isinstance] *)

(** The method resolution order of a class: itself, then its bases.
    [class ReactionTypeEmoji(ReactionType)], [class ReactionType(Object)]. *)
Definition mro (c : class) : list class :=
  match c with
  | cls_Reaction => [cls_Reaction; cls_Object]
  | cls_ReactionType => [cls_ReactionType; cls_Object]
  | cls_ReactionTypeEmoji => [cls_ReactionTypeEmoji; cls_ReactionType; cls_Object]
  | cls_ReactionTypeCustomEmoji => [cls_ReactionTypeCustomEmoji; cls_ReactionType; cls_Object]
  | cls_ReactionTypePaid => [cls_ReactionTypePaid; cls_ReactionType; cls_Object]
  | cls_ReactionCount => [cls_ReactionCount; cls_Object]
  | c => [c]
  end.

(** [isinstance(v, c)] for a class [c] of this development. [None],
    booleans, integers and strings are instances of none of them. *)
Definition isinstance (v : value) (c : class) : bool :=
  match v with
  | VObj c' _ => bool_decide (c ∈ mro c')
  | _ => false
  end.

(** [v.name] for a data attribute: a lookup in the instance dictionary. *)
Definition getattr (v : value) (name : string) : result value :=
  match v with
  | VObj _ d =>
      match d !! name with
      | Some x => Return x
      | None => Raise (AttributeError name)
      end
  | _ => Raise (AttributeError name)
  end.

(** [v.name = x]. Instances store the attribute; [None] and the other
    built-in values refuse it with [AttributeError]. *)
Definition setattr (v : value) (name : string) (x : value) : result value :=
  match v with
  | VObj c d => Return (VObj c (<[name := x]> d))
  | _ => Raise (AttributeError name)
  end.

(** ** Calls with keyword-only parameters *)

Fixpoint keyword (kw : kwargs) (name : string) : option value :=
  match kw with
  | [] => None
  | (k, v) :: kw => if String.eqb k name then Some v else keyword kw name
  end.

(** A call is refused with [TypeError] when it passes a keyword the
    signature does not declare. *)
Definition check_keywords (params : list string) (kw : kwargs) : result unit :=
  if forallb (λ p : string * value, existsb (String.eqb p.1) params) kw
  then Return tt
  else Raise (TypeError "unexpected keyword argument").

(** A parameter declared as [name = None]. *)
Definition optional (kw : kwargs) (name : string) : value :=
  default VNone (keyword kw name).

(** A parameter declared without a default. *)
Definition required (kw : kwargs) (name : string) : result value :=
  match keyword kw name with
  | Some v => Return v
  | None => Raise (TypeError "missing required keyword-only argument")
  end.

(** ** The module namespace *)

(** What a global name of the module is bound to: a class, called with
    keyword arguments, or an imported name that is not one of the module's
    own classes. *)
Inductive binding :=
| Class (call : kwargs → result value)
| Imported.

Definition namespace := list (string * binding).

Fixpoint bound (G : namespace) (name : string) : option binding :=
  match G with
  | [] => None
  | (k, b) :: G => if String.eqb k name then Some b else bound G name
  end.

(** Evaluating a bare name that is then called: a name the namespace does
    not bind raises [NameError] (no built-in of Python is called
    [Reaction...]). *)
Definition resolve (G : namespace) (name : string) : result (kwargs → result value) :=
  match bound G name with
  | Some (Class call) => Return call
  | Some Imported => Return (λ _, Raise (TypeError "object is not callable"))
  | None => Raise (NameError name)
  end.

(** ** Imports *)

(** [from ..object import Object]: the base class lives in another file.
    All this module uses of it is its initialiser, called as
    [super().__init__(client)] or [super().__init__()]; it is taken as a
    parameter: the attribute dictionary a fresh instance has after
    [Object.__init__], given the argument passed, if any. *)
Class Imports := { Object__init__ : option value → gmap string value }.

(** Modelled from the spec: the wire classes of [raw.types] are generated
    code outside this file; section 6 of the specification lists their tags
    and fields: [ReactionEmpty], [ReactionEmoji {emoticon}],
    [ReactionCustomEmoji {document_id}], [ReactionPaid] and
    [ReactionCount {reaction, count, chosen_order}]. *)
Module raw.
Module types.

Definition ReactionEmpty : value := VObj raw_ReactionEmpty ∅.

Definition ReactionEmoji (emoticon : value) : value :=
  VObj raw_ReactionEmoji {[ "emoticon" := emoticon ]}.

Definition ReactionCustomEmoji (document_id : value) : value :=
  VObj raw_ReactionCustomEmoji {[ "document_id" := document_id ]}.

Definition ReactionPaid : value := VObj raw_ReactionPaid ∅.

Definition ReactionCount (reaction count chosen_order : value) : value :=
  VObj raw_ReactionCount
    (<["chosen_order" := chosen_order]>
       (<["count" := count]> {[ "reaction" := reaction ]})).

End types.
End raw.

(** ** class Reaction(Object) *)

Module Reaction.
Section Reaction.
Context `{Imports}.

(** [__init__(self, *, client=None, type=None, count=None,
    chosen_order=None, is_paid=None)]: the attribute dictionary of the
    instance once the body has run. *)
Definition __init__ (client type count chosen_order is_paid : value)
  : gmap string value :=
  let self := Object__init__ (Some client) in
  let self := <["type" := type]> self in
  let self := <["count" := count]> self in
  let self := <["chosen_order" := chosen_order]> self in
  self.

(** The class called with keyword arguments: [Reaction(client=..., ...)]. *)
Definition call (kw : kwargs) : result value :=
  _ ← check_keywords ["client"; "type"; "count"; "chosen_order"; "is_paid"] kw;
  mret (VObj cls_Reaction
          (__init__ (optional kw "client") (optional kw "type")
             (optional kw "count") (optional kw "chosen_order")
             (optional kw "is_paid"))).

(** The static method looks its class names up in the module namespace [G]
    when it runs. In each branch the callee names are evaluated first, then
    the arguments, then the calls, inner before outer. *)
Definition _parse (G : namespace) (client reaction : value) : result value :=
  if isinstance reaction raw_ReactionEmoji then
    Reaction ← resolve G "Reaction";
    ReactionEmoji ← resolve G "ReactionEmoji";
    emoticon ← getattr reaction "emoticon";
    type ← ReactionEmoji [("emoji", emoticon)];
    Reaction [("client", client); ("type", type)]
  else if isinstance reaction raw_ReactionCustomEmoji then
    Reaction ← resolve G "Reaction";
    ReactionTypeCustomEmoji ← resolve G "ReactionTypeCustomEmoji";
    document_id ← getattr reaction "document_id";
    type ← ReactionTypeCustomEmoji [("custom_emoji_id", document_id)];
    Reaction [("client", client); ("type", type)]
  else if isinstance reaction raw_ReactionPaid then
    Reaction ← resolve G "Reaction";
    ReactionTypePaid ← resolve G "ReactionTypePaid";
    type ← ReactionTypePaid [];
    Reaction [("client", client); ("type", type)]
  else
    mret VNone.

Definition _parse_count (G : namespace) (client reaction_count : value)
  : result value :=
  inner ← getattr reaction_count "reaction";
  reaction ← _parse G client inner;
  count ← getattr reaction_count "count";
  reaction ← setattr reaction "count" count;
  chosen_order ← getattr reaction_count "chosen_order";
  reaction ← setattr reaction "chosen_order" chosen_order;
  mret reaction.

End Reaction.
End Reaction.

(** ** class ReactionType(Object) *)

Module ReactionType.
Section ReactionType.
Context `{Imports}.

(** [__init__(self, *, type=None, emoji=None, custom_emoji_id=None)] *)
Definition __init__ (type emoji custom_emoji_id : value) : gmap string value :=
  let self := Object__init__ None in
  let self := <["type" := type]> self in
  let self := <["emoji" := emoji]> self in
  let self := <["custom_emoji_id" := custom_emoji_id]> self in
  self.

Definition call (kw : kwargs) : result value :=
  _ ← check_keywords ["type"; "emoji"; "custom_emoji_id"] kw;
  mret (VObj cls_ReactionType
          (__init__ (optional kw "type") (optional kw "emoji")
             (optional kw "custom_emoji_id"))).

(** An [if]/[elif] chain without [else]: falling off the end returns
    [None]. *)
Definition _parse (G : namespace) (client update : value) : result value :=
  if isinstance update raw_ReactionEmpty then
    mret VNone
  else if isinstance update raw_ReactionEmoji then
    ReactionTypeEmoji ← resolve G "ReactionTypeEmoji";
    emoticon ← getattr update "emoticon";
    ReactionTypeEmoji [("emoji", emoticon)]
  else if isinstance update raw_ReactionCustomEmoji then
    ReactionTypeCustomEmoji ← resolve G "ReactionTypeCustomEmoji";
    document_id ← getattr update "document_id";
    ReactionTypeCustomEmoji [("custom_emoji_id", document_id)]
  else if isinstance update raw_ReactionPaid then
    ReactionTypePaid ← resolve G "ReactionTypePaid";
    ReactionTypePaid []
  else
    mret VNone.

Definition write (self client : value) : result value :=
  Raise NotImplementedError.

End ReactionType.
End ReactionType.

(** ** class ReactionTypeEmoji(ReactionType) *)

Module ReactionTypeEmoji.
Section ReactionTypeEmoji.
Context `{Imports}.

(** [__init__(self, *, emoji=None)] hands over to the base initialiser
    with [type="emoji"]. *)
Definition __init__ (emoji : value) : gmap string value :=
  ReactionType.__init__ (VStr "emoji") emoji VNone.

Definition call (kw : kwargs) : result value :=
  _ ← check_keywords ["emoji"] kw;
  mret (VObj cls_ReactionTypeEmoji (__init__ (optional kw "emoji"))).

Definition write (self client : value) : result value :=
  emoji ← getattr self "emoji";
  mret (raw.types.ReactionEmoji emoji).

End ReactionTypeEmoji.
End ReactionTypeEmoji.

(** ** class ReactionTypeCustomEmoji(ReactionType) *)

Module ReactionTypeCustomEmoji.
Section ReactionTypeCustomEmoji.
Context `{Imports}.

(** [__init__(self, *, custom_emoji_id=None)] *)
Definition __init__ (custom_emoji_id : value) : gmap string value :=
  ReactionType.__init__ (VStr "custom_emoji") VNone custom_emoji_id.

Definition call (kw : kwargs) : result value :=
  _ ← check_keywords ["custom_emoji_id"] kw;
  mret (VObj cls_ReactionTypeCustomEmoji
          (__init__ (optional kw "custom_emoji_id"))).

Definition write (self client : value) : result value :=
  custom_emoji_id ← getattr self "custom_emoji_id";
  mret (raw.types.ReactionCustomEmoji custom_emoji_id).

End ReactionTypeCustomEmoji.
End ReactionTypeCustomEmoji.

(** ** class ReactionTypePaid(ReactionType) *)

Module ReactionTypePaid.
Section ReactionTypePaid.
Context `{Imports}.

(** [__init__(self)] *)
Definition __init__ : gmap string value :=
  ReactionType.__init__ (VStr "paid") VNone VNone.

Definition call (kw : kwargs) : result value :=
  _ ← check_keywords [] kw;
  mret (VObj cls_ReactionTypePaid __init__).

Definition write (self client : value) : result value :=
  mret raw.types.ReactionPaid.

End ReactionTypePaid.
End ReactionTypePaid.

(** ** class ReactionCount(Object) *)

Module ReactionCount.
Section ReactionCount.
Context `{Imports}.

(** [__init__(self, *, type, total_count, chosen_order)] *)
Definition __init__ (type total_count chosen_order : value)
  : gmap string value :=
  let self := Object__init__ None in
  let self := <["type" := type]> self in
  let self := <["total_count" := total_count]> self in
  let self := <["chosen_order" := chosen_order]> self in
  self.

Definition call (kw : kwargs) : result value :=
  _ ← check_keywords ["type"; "total_count"; "chosen_order"] kw;
  type ← required kw "type";
  total_count ← required kw "total_count";
  chosen_order ← required kw "chosen_order";
  mret (VObj cls_ReactionCount (__init__ type total_count chosen_order)).

Definition _parse (G : namespace) (client update : value) : result value :=
  ReactionCount ← resolve G "ReactionCount";
  reaction ← getattr update "reaction";
  type ← ReactionType._parse G client reaction;
  total_count ← getattr update "count";
  chosen_order ← getattr update "chosen_order";
  ReactionCount [("type", type); ("total_count", total_count);
                 ("chosen_order", chosen_order)].

End ReactionCount.
End ReactionCount.

(** ** The module as a whole *)

Section module.
Context `{Imports}.

(** The global names of reaction.py once it has been imported: the four
    imported names and the six classes. The imported ones are never called
    as bare names. *)
Definition globals : namespace :=
  [ ("Optional", Imported);
    ("pyrogram", Imported);
    ("raw", Imported);
    ("Object", Imported);
    ("Reaction", Class Reaction.call);
    ("ReactionType", Class ReactionType.call);
    ("ReactionTypeEmoji", Class ReactionTypeEmoji.call);
    ("ReactionTypeCustomEmoji", Class ReactionTypeCustomEmoji.call);
    ("ReactionTypePaid", Class ReactionTypePaid.call);
    ("ReactionCount", Class ReactionCount.call) ].

(** The [write] a class defines in its own body, if any. *)
Definition own_write (c : class) : option (value → value → result value) :=
  match c with
  | cls_ReactionType => Some ReactionType.write
  | cls_ReactionTypeEmoji => Some ReactionTypeEmoji.write
  | cls_ReactionTypeCustomEmoji => Some ReactionTypeCustomEmoji.write
  | cls_ReactionTypePaid => Some ReactionTypePaid.write
  | _ => None
  end.

(** [v.write(client)]: the first [write] along the method resolution order
    of the class of [v]; a value without that method raises
    [AttributeError]. *)
Definition call_write (v client : value) : result value :=
  match v with
  | VObj c _ =>
      match head (omap own_write (mro c)) with
      | Some method => method v client
      | None => Raise (AttributeError "write")
      end
  | _ => Raise (AttributeError "write")
  end.

End module.

(** ** Vocabulary of the specification *)

Section vocabulary.
Context `{Imports}.

(** The concrete variants of [ReactionType], as their constructors build
    them: [ReactionTypeEmoji(emoji=e)] for a string [e],
    [ReactionTypeCustomEmoji(custom_emoji_id=i)] and [ReactionTypePaid()]. *)
Inductive concrete_variant : value → Prop :=
| variant_emoji (emoji : string) :
    concrete_variant
      (VObj cls_ReactionTypeEmoji (ReactionTypeEmoji.__init__ (VStr emoji)))
| variant_custom_emoji (custom_emoji_id : value) :
    concrete_variant
      (VObj cls_ReactionTypeCustomEmoji
         (ReactionTypeCustomEmoji.__init__ custom_emoji_id))
| variant_paid :
    concrete_variant (VObj cls_ReactionTypePaid ReactionTypePaid.__init__).

End vocabulary.

(** The wire reactions with one of the three known non-empty tags. *)
Inductive known_wire : value → Prop :=
| wire_emoji (emoticon : string) :
    known_wire (raw.types.ReactionEmoji (VStr emoticon))
| wire_custom_emoji (document_id : Z) :
    known_wire (raw.types.ReactionCustomEmoji (VInt document_id))
| wire_paid :
    known_wire raw.types.ReactionPaid.

(** The wire reactions of the four tags the module knows: the empty marker
    and the three above. *)
Definition wire_reaction (w : value) : Prop :=
  w = raw.types.ReactionEmpty ∨ known_wire w.

(** The wire tags [ReactionType._parse] tests for. *)
Definition known_tags : list class :=
  [raw_ReactionEmpty; raw_ReactionEmoji; raw_ReactionCustomEmoji;
   raw_ReactionPaid].

(** A value that is an instance of none of them. *)
Definition unknown_tag (w : value) : bool :=
  negb (existsb (isinstance w) known_tags).

(** The range of a signed 64-bit integer, the wire type of [document_id]. *)
Definition int64 (z : Z) : Prop := (- 2 ^ 63 ≤ z < 2 ^ 63)%Z.

(** A base class to run the model on: its initialiser keeps the client it
    is given ([None] when called without one) in [_client]. *)
Definition Object_keeps_client : Imports :=
  {| Object__init__ := λ client, {[ "_client" := default VNone client ]} |}.

(** * Properties *)

Section properties.
Context `{Imports}.
Implicit Types client w v : value.

(** Reading an attribute back from a dictionary built by assignments. *)
Ltac read_attrs :=
  repeat first
    [ rewrite lookup_insert_eq
    | rewrite lookup_insert_ne by done ].

(** ** Attributes of freshly built instances *)

Lemma ReactionType_init_type type emoji custom_emoji_id :
  ReactionType.__init__ type emoji custom_emoji_id !! "type" = Some type.
Proof. unfold ReactionType.__init__. by read_attrs. Qed.

Lemma ReactionType_init_emoji type emoji custom_emoji_id :
  ReactionType.__init__ type emoji custom_emoji_id !! "emoji" = Some emoji.
Proof. unfold ReactionType.__init__. by read_attrs. Qed.

Lemma ReactionType_init_custom_emoji_id type emoji custom_emoji_id :
  ReactionType.__init__ type emoji custom_emoji_id !! "custom_emoji_id"
  = Some custom_emoji_id.
Proof. unfold ReactionType.__init__. by read_attrs. Qed.

(** ** [ReactionType._parse], tag by tag *)

Lemma ReactionType_parse_Empty client :
  ReactionType._parse globals client raw.types.ReactionEmpty = Return VNone.
Proof. reflexivity. Qed.

Lemma ReactionType_parse_Emoji client emoticon :
  ReactionType._parse globals client (raw.types.ReactionEmoji emoticon)
  = Return (VObj cls_ReactionTypeEmoji (ReactionTypeEmoji.__init__ emoticon)).
Proof. reflexivity. Qed.

Lemma ReactionType_parse_CustomEmoji client document_id :
  ReactionType._parse globals client (raw.types.ReactionCustomEmoji document_id)
  = Return (VObj cls_ReactionTypeCustomEmoji
              (ReactionTypeCustomEmoji.__init__ document_id)).
Proof. reflexivity. Qed.

Lemma ReactionType_parse_Paid client :
  ReactionType._parse globals client raw.types.ReactionPaid
  = Return (VObj cls_ReactionTypePaid ReactionTypePaid.__init__).
Proof. reflexivity. Qed.

(** ** [write], variant by variant *)

Lemma write_Emoji client emoji :
  call_write (VObj cls_ReactionTypeEmoji (ReactionTypeEmoji.__init__ emoji))
    client
  = Return (raw.types.ReactionEmoji emoji).
Proof.
  cbn. unfold ReactionTypeEmoji.write, ReactionTypeEmoji.__init__, getattr.
  by rewrite ReactionType_init_emoji.
Qed.

Lemma write_CustomEmoji client custom_emoji_id :
  call_write
    (VObj cls_ReactionTypeCustomEmoji
       (ReactionTypeCustomEmoji.__init__ custom_emoji_id))
    client
  = Return (raw.types.ReactionCustomEmoji custom_emoji_id).
Proof.
  cbn. unfold ReactionTypeCustomEmoji.write, ReactionTypeCustomEmoji.__init__,
    getattr.
  by rewrite ReactionType_init_custom_emoji_id.
Qed.

Lemma write_Paid client :
  call_write (VObj cls_ReactionTypePaid ReactionTypePaid.__init__) client
  = Return raw.types.ReactionPaid.
Proof. reflexivity. Qed.

(** ** Round trips *)

(** C1. Encoding a concrete variant and decoding the wire value gives the
    variant back: [ReactionType._parse(client, v.write(client))] returns an
    object of the same class with the same attribute dictionary as [v]. *)
Theorem parse_write_roundtrip client v :
  concrete_variant v →
  call_write v client ≫= ReactionType._parse globals client = Return v.
Proof.
  destruct 1 as [emoji | custom_emoji_id | ].
  - rewrite write_Emoji. apply ReactionType_parse_Emoji.
  - rewrite write_CustomEmoji. apply ReactionType_parse_CustomEmoji.
  - rewrite write_Paid. apply ReactionType_parse_Paid.
Qed.

(** C2. Decoding a wire reaction with one of the three known non-empty tags
    and encoding the result gives the wire value back, field for field:
    [ReactionType._parse(client, w).write(client) == w]. *)
Theorem write_parse_roundtrip client w :
  known_wire w →
  ReactionType._parse globals client w ≫= (λ v, call_write v client)
  = Return w.
Proof.
  destruct 1 as [emoticon | document_id | ].
  - rewrite ReactionType_parse_Emoji. apply write_Emoji.
  - rewrite ReactionType_parse_CustomEmoji. apply write_CustomEmoji.
  - rewrite ReactionType_parse_Paid. apply write_Paid.
Qed.

(** ** [Reaction._parse], tag by tag *)

(** C3. On a wire [ReactionEmoji] the static method [Reaction._parse]
    evaluates the bare name [ReactionEmoji], which the module never binds
    (its class is called [ReactionTypeEmoji]), and raises [NameError]
    instead of returning a [Reaction] of the emoji variant. *)
Theorem Reaction_parse_Emoji_raises client emoticon :
  Reaction._parse globals client (raw.types.ReactionEmoji emoticon)
  = Raise (NameError "ReactionEmoji").
Proof. reflexivity. Qed.

Lemma Reaction_parse_CustomEmoji client document_id :
  Reaction._parse globals client (raw.types.ReactionCustomEmoji document_id)
  = Return
      (VObj cls_Reaction
         (Reaction.__init__ client
            (VObj cls_ReactionTypeCustomEmoji
               (ReactionTypeCustomEmoji.__init__ document_id))
            VNone VNone VNone)).
Proof. reflexivity. Qed.

Lemma Reaction_parse_Paid client :
  Reaction._parse globals client raw.types.ReactionPaid
  = Return
      (VObj cls_Reaction
         (Reaction.__init__ client
            (VObj cls_ReactionTypePaid ReactionTypePaid.__init__)
            VNone VNone VNone)).
Proof. reflexivity. Qed.

Lemma Reaction_parse_Empty client :
  Reaction._parse globals client raw.types.ReactionEmpty = Return VNone.
Proof. reflexivity. Qed.

(** ** [Reaction._parse_count] *)

(** Assigning [count] and [chosen_order] to a fresh [Reaction] gives the
    dictionary the constructor would have built with them. *)
Lemma Reaction_backfill client type count chosen_order is_paid :
  <["chosen_order" := chosen_order]>
    (<["count" := count]> (Reaction.__init__ client type VNone VNone is_paid))
  = Reaction.__init__ client type count chosen_order is_paid.
Proof.
  unfold Reaction.__init__. apply map_eq; intros name.
  rewrite !lookup_insert. by repeat case_decide.
Qed.

Lemma Reaction_parse_count_CustomEmoji client document_id count chosen_order :
  Reaction._parse_count globals client
    (raw.types.ReactionCount (raw.types.ReactionCustomEmoji document_id)
       count chosen_order)
  = Return
      (VObj cls_Reaction
         (Reaction.__init__ client
            (VObj cls_ReactionTypeCustomEmoji
               (ReactionTypeCustomEmoji.__init__ document_id))
            count chosen_order VNone)).
Proof. rewrite <- Reaction_backfill. reflexivity. Qed.

Lemma Reaction_parse_count_Paid client count chosen_order :
  Reaction._parse_count globals client
    (raw.types.ReactionCount raw.types.ReactionPaid count chosen_order)
  = Return
      (VObj cls_Reaction
         (Reaction.__init__ client
            (VObj cls_ReactionTypePaid ReactionTypePaid.__init__)
            count chosen_order VNone)).
Proof. rewrite <- Reaction_backfill. reflexivity. Qed.

(** C4. On the aggregate record with inner reaction [ReactionEmoji("👍")],
    count 42 and chosen_order 3, and on every other aggregate whose inner
    reaction is a wire [ReactionEmoji], [Reaction._parse_count] raises the
    [NameError] of the inner [Reaction._parse] and returns no [Reaction]. *)
Theorem Reaction_parse_count_Emoji_raises client :
  Reaction._parse_count globals client
    (raw.types.ReactionCount (raw.types.ReactionEmoji (VStr "👍"))
       (VInt 42) (VInt 3))
  = Raise (NameError "ReactionEmoji")
  ∧ ∀ emoticon count chosen_order,
      Reaction._parse_count globals client
        (raw.types.ReactionCount (raw.types.ReactionEmoji emoticon)
           count chosen_order)
      = Raise (NameError "ReactionEmoji").
Proof. split; reflexivity. Qed.

(** C5. On an aggregate record whose inner reaction is the empty marker,
    or an instance of a class the module does not know, the inner parse
    returns [None] and the assignment [reaction.count = ...] on it raises
    [AttributeError]: no [Reaction] is returned. *)
Theorem Reaction_parse_count_absent_raises client count chosen_order :
  Reaction._parse_count globals client
    (raw.types.ReactionCount raw.types.ReactionEmpty count chosen_order)
  = Raise (AttributeError "count")
  ∧ ∀ qualname d,
      Reaction._parse_count globals client
        (raw.types.ReactionCount (VObj (cls_other qualname) d)
           count chosen_order)
      = Raise (AttributeError "count").
Proof. split; reflexivity. Qed.

(** ** Unknown and empty tags *)

(** C6. A value that is an instance of none of the known wire classes is
    decoded to [None] by [ReactionType._parse] and by [Reaction._parse];
    neither raises. *)
Theorem unknown_tag_absent client w :
  unknown_tag w = true →
  ReactionType._parse globals client w = Return VNone
  ∧ Reaction._parse globals client w = Return VNone.
Proof.
  intros Hw.
  destruct w as [ | | | | [] d]; try discriminate Hw; split; reflexivity.
Qed.

(** C7. The empty wire marker is decoded to [None], and an aggregate
    record whose inner reaction is the empty marker is still decoded to a
    [ReactionCount], with [type] [None] and with [total_count] and
    [chosen_order] taken from the record. *)
Theorem empty_reaction_absent client count chosen_order :
  ReactionType._parse globals client raw.types.ReactionEmpty = Return VNone
  ∧ ∃ rc,
      ReactionCount._parse globals client
        (raw.types.ReactionCount raw.types.ReactionEmpty count chosen_order)
      = Return rc
      ∧ isinstance rc cls_ReactionCount = true
      ∧ getattr rc "type" = Return VNone
      ∧ getattr rc "total_count" = Return count
      ∧ getattr rc "chosen_order" = Return chosen_order.
Proof.
  split; [reflexivity | ].
  exists (VObj cls_ReactionCount
            (ReactionCount.__init__ VNone count chosen_order)).
  split; [reflexivity | ].
  split; [reflexivity | ].
  unfold getattr, ReactionCount.__init__. by read_attrs.
Qed.

(** ** The base class has no encoding *)

(** C8. [write] on an instance of [ReactionType] that is an instance of
    none of its three subclasses raises [NotImplementedError]. *)
Theorem write_base_raises client v :
  isinstance v cls_ReactionType = true →
  isinstance v cls_ReactionTypeEmoji = false →
  isinstance v cls_ReactionTypeCustomEmoji = false →
  isinstance v cls_ReactionTypePaid = false →
  call_write v client = Raise NotImplementedError.
Proof.
  intros Hbase Hemoji Hcustom Hpaid.
  destruct v as [ | | | | [] d]; try discriminate; reflexivity.
Qed.

(** ** Custom emoji identifiers *)

(** C9. A 64-bit [document_id] is decoded to a [custom_emoji_id] that is
    the same integer, and encoding puts that integer back into the
    [document_id] field of the wire value. *)
Theorem custom_emoji_id_preserved client id :
  int64 id →
  ∃ v,
    ReactionType._parse globals client
      (raw.types.ReactionCustomEmoji (VInt id))
    = Return v
    ∧ getattr v "custom_emoji_id" = Return (VInt id)
    ∧ call_write v client ≫= (λ w, getattr w "document_id")
      = Return (VInt id).
Proof.
  intros _. eexists. split; [apply ReactionType_parse_CustomEmoji | ].
  split.
  - unfold getattr, ReactionTypeCustomEmoji.__init__.
    by rewrite ReactionType_init_custom_emoji_id.
  - by rewrite write_CustomEmoji.
Qed.

(** ** The [is_paid] parameter *)

(** C10. The constructor of [Reaction] ignores [is_paid]: whatever is
    passed for it, the instance has the same attribute dictionary, holding
    [type], [count] and [chosen_order] as given; and as long as the base
    class sets no attribute of that name, the instance has no [is_paid]
    attribute. *)
Theorem is_paid_ignored client type count chosen_order is_paid is_paid' :
  (∀ arg, Object__init__ arg !! "is_paid" = None) →
  let new p :=
    Reaction.call
      [("client", client); ("type", type); ("count", count);
       ("chosen_order", chosen_order); ("is_paid", p)] in
  new is_paid = new is_paid'
  ∧ ∃ r,
      new is_paid = Return r
      ∧ getattr r "type" = Return type
      ∧ getattr r "count" = Return count
      ∧ getattr r "chosen_order" = Return chosen_order
      ∧ getattr r "is_paid" = Raise (AttributeError "is_paid").
Proof.
  intros Hbase new. split; [reflexivity | ].
  eexists. split; [reflexivity | ].
  unfold getattr, Reaction.__init__. cbn [optional keyword default].
  read_attrs. by rewrite Hbase.
Qed.

End properties.

(** * The properties on concrete inputs *)

Section witnesses.
#[local] Existing Instance Object_keeps_client.

(** [ReactionTypeEmoji(emoji="👍")] survives encoding and decoding. *)
Lemma parse_write_roundtrip_witness :
  let v :=
    VObj cls_ReactionTypeEmoji (ReactionTypeEmoji.__init__ (VStr "👍")) in
  concrete_variant v
  ∧ call_write v VNone ≫= ReactionType._parse globals VNone = Return v.
Proof.
  split; [constructor | apply parse_write_roundtrip; constructor].
Defined.

(** The wire value [ReactionCustomEmoji(document_id=123456789012345)]
    survives decoding and encoding. *)
Lemma write_parse_roundtrip_witness :
  let w := raw.types.ReactionCustomEmoji (VInt 123456789012345) in
  known_wire w
  ∧ ReactionType._parse globals VNone w ≫= (λ v, call_write v VNone)
    = Return w.
Proof.
  split; [constructor | apply write_parse_roundtrip; constructor].
Defined.

(** An instance of a wire class added after this module was written. *)
Lemma unknown_tag_absent_witness :
  let w := VObj (cls_other "raw.types.ReactionFuture") ∅ in
  unknown_tag w = true
  ∧ ReactionType._parse globals VNone w = Return VNone
  ∧ Reaction._parse globals VNone w = Return VNone.
Proof.
  split; [reflexivity | apply unknown_tag_absent; reflexivity].
Defined.

(** [ReactionType()] itself cannot be encoded. *)
Lemma write_base_raises_witness :
  let v := VObj cls_ReactionType (ReactionType.__init__ VNone VNone VNone) in
  isinstance v cls_ReactionType = true
  ∧ isinstance v cls_ReactionTypeEmoji = false
  ∧ isinstance v cls_ReactionTypeCustomEmoji = false
  ∧ isinstance v cls_ReactionTypePaid = false
  ∧ call_write v VNone = Raise NotImplementedError.
Proof.
  repeat (split; [reflexivity | ]).
  apply write_base_raises; reflexivity.
Defined.

(** The largest 64-bit identifier, far beyond 2^53. *)
Lemma custom_emoji_id_preserved_witness :
  int64 9223372036854775807
  ∧ ∃ v,
      ReactionType._parse globals VNone
        (raw.types.ReactionCustomEmoji (VInt 9223372036854775807))
      = Return v
      ∧ getattr v "custom_emoji_id" = Return (VInt 9223372036854775807)
      ∧ call_write v VNone ≫= (λ w, getattr w "document_id")
        = Return (VInt 9223372036854775807).
Proof.
  split; [unfold int64; lia | ].
  apply custom_emoji_id_preserved. unfold int64; lia.
Defined.

(** [Reaction(type=ReactionTypePaid(), count=42, chosen_order=3,
    is_paid=True)] against the same call with [is_paid=False]. *)
Lemma is_paid_ignored_witness :
  let paid := VObj cls_ReactionTypePaid ReactionTypePaid.__init__ in
  let new p :=
    Reaction.call
      [("client", VNone); ("type", paid); ("count", VInt 42);
       ("chosen_order", VInt 3); ("is_paid", p)] in
  (∀ arg, Object__init__ arg !! "is_paid" = None)
  ∧ new (VBool true) = new (VBool false)
  ∧ ∃ r,
      new (VBool true) = Return r
      ∧ getattr r "type" = Return paid
      ∧ getattr r "count" = Return (VInt 42)
      ∧ getattr r "chosen_order" = Return (VInt 3)
      ∧ getattr r "is_paid" = Raise (AttributeError "is_paid").
Proof.
  split; [intros arg; reflexivity | ].
  apply (is_paid_ignored VNone _ (VInt 42) (VInt 3) (VBool true) (VBool false)).
  intros arg; reflexivity.
Defined.

End witnesses.

(** * Further properties of the module *)

Section more_properties.
Context `{Imports}.
Implicit Types client w v r : value.

Ltac attrs :=
  unfold getattr, Reaction.__init__, ReactionCount.__init__,
    ReactionTypeEmoji.__init__, ReactionTypeCustomEmoji.__init__,
    ReactionTypePaid.__init__, ReactionType.__init__;
  repeat first
    [ rewrite lookup_insert_eq
    | rewrite lookup_insert_ne by done ];
  try done.

(** ** The parsers on arbitrary instances of the wire classes *)

Lemma Reaction_parse_custom_instance client d :
  Reaction._parse globals client (VObj raw_ReactionCustomEmoji d)
  = match d !! "document_id" with
    | Some document_id =>
        Return
          (VObj cls_Reaction
             (Reaction.__init__ client
                (VObj cls_ReactionTypeCustomEmoji
                   (ReactionTypeCustomEmoji.__init__ document_id))
                VNone VNone VNone))
    | None => Raise (AttributeError "document_id")
    end.
Proof.
  unfold Reaction._parse, getattr. by destruct (d !! "document_id").
Qed.

Lemma ReactionType_parse_emoji_instance client d :
  ReactionType._parse globals client (VObj raw_ReactionEmoji d)
  = match d !! "emoticon" with
    | Some emoticon =>
        Return (VObj cls_ReactionTypeEmoji (ReactionTypeEmoji.__init__ emoticon))
    | None => Raise (AttributeError "emoticon")
    end.
Proof.
  unfold ReactionType._parse, getattr. by destruct (d !! "emoticon").
Qed.

Lemma ReactionType_parse_custom_instance client d :
  ReactionType._parse globals client (VObj raw_ReactionCustomEmoji d)
  = match d !! "document_id" with
    | Some document_id =>
        Return (VObj cls_ReactionTypeCustomEmoji
                  (ReactionTypeCustomEmoji.__init__ document_id))
    | None => Raise (AttributeError "document_id")
    end.
Proof.
  unfold ReactionType._parse, getattr. by destruct (d !! "document_id").
Qed.

(** What [Reaction._parse] can return at all. *)
Lemma Reaction_parse_inv client w r :
  Reaction._parse globals client w = Return r →
  r = VNone
  ∨ ∃ t, r = VObj cls_Reaction (Reaction.__init__ client t VNone VNone VNone)
         ∧ isinstance t cls_ReactionType = true.
Proof.
  intros Hp. destruct w as [ | | | | c d].
  1-4: (injection Hp as <-; by left).
  destruct c; try (injection Hp as <-; by left).
  - discriminate Hp.
  - rewrite Reaction_parse_custom_instance in Hp.
    destruct (d !! "document_id"); [ | discriminate Hp].
    injection Hp as <-. right. by eexists.
  - injection Hp as <-. right. by eexists.
Qed.

(** What [ReactionType._parse] can return at all. *)
Lemma ReactionType_parse_inv client w v :
  ReactionType._parse globals client w = Return v →
  v = VNone
  ∨ (∃ emoticon,
       getattr w "emoticon" = Return emoticon
       ∧ v = VObj cls_ReactionTypeEmoji (ReactionTypeEmoji.__init__ emoticon))
  ∨ (∃ document_id,
       getattr w "document_id" = Return document_id
       ∧ v = VObj cls_ReactionTypeCustomEmoji
               (ReactionTypeCustomEmoji.__init__ document_id))
  ∨ v = VObj cls_ReactionTypePaid ReactionTypePaid.__init__.
Proof.
  intros Hp. destruct w as [ | | | | c d].
  1-4: (injection Hp as <-; by left).
  destruct c; try (injection Hp as <-; by left).
  - rewrite ReactionType_parse_emoji_instance in Hp. unfold getattr.
    destruct (d !! "emoticon"); [ | discriminate Hp].
    injection Hp as <-. right; left. by eexists.
  - rewrite ReactionType_parse_custom_instance in Hp. unfold getattr.
    destruct (d !! "document_id"); [ | discriminate Hp].
    injection Hp as <-. right; right; left. by eexists.
  - injection Hp as <-. by repeat right.
Qed.

(** The two aggregate parsers on a record, in terms of the parse of its
    inner reaction. *)
Lemma ReactionCount_parse_record client inner count chosen_order :
  ReactionCount._parse globals client
    (raw.types.ReactionCount inner count chosen_order)
  = t ← ReactionType._parse globals client inner;
    Return (VObj cls_ReactionCount
              (ReactionCount.__init__ t count chosen_order)).
Proof. reflexivity. Qed.

(** ** [Reaction._parse] against [ReactionType._parse] *)

(** X1. On a custom-emoji or paid wire reaction, [Reaction._parse] returns
    a [Reaction] whose [type] is the very object [ReactionType._parse]
    returns for the same input, and whose [count] and [chosen_order] are
    [None]. *)
Theorem Reaction_parse_type_agrees client w :
  known_wire w →
  isinstance w raw_ReactionEmoji = false →
  ∃ r t,
    Reaction._parse globals client w = Return r
    ∧ ReactionType._parse globals client w = Return t
    ∧ isinstance r cls_Reaction = true
    ∧ getattr r "type" = Return t
    ∧ getattr r "count" = Return VNone
    ∧ getattr r "chosen_order" = Return VNone.
Proof.
  destruct 1 as [emoticon | document_id | ]; intros Hw;
    [discriminate Hw | | ]; eexists _, _;
    (split; [reflexivity | ]); (split; [reflexivity | ]);
    (split; [reflexivity | ]); repeat split; attrs.
Qed.

(** X2. On an aggregate record whose inner reaction is a custom-emoji or
    paid wire reaction, back-filling [count] and [chosen_order] by
    assignment gives exactly the object the constructor call
    [Reaction(client=client, type=t, count=..., chosen_order=...)] builds
    from the decoded type [t]. *)
Theorem Reaction_parse_count_constructs client inner count chosen_order :
  known_wire inner →
  isinstance inner raw_ReactionEmoji = false →
  Reaction._parse_count globals client
    (raw.types.ReactionCount inner count chosen_order)
  = t ← ReactionType._parse globals client inner;
    Reaction.call
      [("client", client); ("type", t); ("count", count);
       ("chosen_order", chosen_order)].
Proof.
  destruct 1 as [emoticon | document_id | ]; intros Hw;
    [discriminate Hw | | ].
  - by rewrite Reaction_parse_count_CustomEmoji.
  - by rewrite Reaction_parse_count_Paid.
Qed.

(** ** [ReactionCount._parse] *)

(** X3. Whenever [ReactionType._parse] returns [t] for the inner reaction
    of an aggregate record, [ReactionCount._parse] returns a
    [ReactionCount] whose [type] is [t], whose [total_count] is the
    record's [count] and whose [chosen_order] is the record's. *)
Theorem ReactionCount_parse_fields client inner t count chosen_order :
  ReactionType._parse globals client inner = Return t →
  ∃ rc,
    ReactionCount._parse globals client
      (raw.types.ReactionCount inner count chosen_order)
    = Return rc
    ∧ isinstance rc cls_ReactionCount = true
    ∧ getattr rc "type" = Return t
    ∧ getattr rc "total_count" = Return count
    ∧ getattr rc "chosen_order" = Return chosen_order.
Proof.
  intros Ht. rewrite ReactionCount_parse_record, Ht.
  eexists. split; [reflexivity | ]. split; [reflexivity | ].
  repeat split; attrs.
Qed.

(** X4. On an aggregate record whose inner reaction is a custom-emoji or
    paid wire reaction the two aggregate parsers agree:
    [Reaction._parse_count] and [ReactionCount._parse] return objects with
    the same [type] and [chosen_order], and the [count] of the one is the
    [total_count] of the other. *)
Theorem aggregate_parsers_agree client inner count chosen_order :
  known_wire inner →
  isinstance inner raw_ReactionEmoji = false →
  ∃ r rc t,
    Reaction._parse_count globals client
      (raw.types.ReactionCount inner count chosen_order)
    = Return r
    ∧ ReactionCount._parse globals client
        (raw.types.ReactionCount inner count chosen_order)
      = Return rc
    ∧ getattr r "type" = Return t ∧ getattr rc "type" = Return t
    ∧ getattr r "count" = Return count
    ∧ getattr rc "total_count" = Return count
    ∧ getattr r "chosen_order" = Return chosen_order
    ∧ getattr rc "chosen_order" = Return chosen_order.
Proof.
  destruct 1 as [emoticon | document_id | ]; intros Hw;
    [discriminate Hw | | ].
  - rewrite Reaction_parse_count_CustomEmoji. eexists _, _, _.
    split; [reflexivity | ]. split; [reflexivity | ]. repeat split; attrs.
  - rewrite Reaction_parse_count_Paid. eexists _, _, _.
    split; [reflexivity | ]. split; [reflexivity | ]. repeat split; attrs.
Qed.

(** ** Decoding and encoding lose nothing *)

(** X5. [ReactionType._parse] is injective on the wire reactions of the
    four known tags: two of them that decode to the same result are the
    same wire value. *)
Theorem ReactionType_parse_injective client w1 w2 :
  wire_reaction w1 →
  wire_reaction w2 →
  ReactionType._parse globals client w1
  = ReactionType._parse globals client w2 →
  w1 = w2.
Proof.
  intros [-> | [e1 | i1 | ]] [-> | [e2 | i2 | ]] Heq;
    try reflexivity; try discriminate Heq.
  - rewrite !ReactionType_parse_Emoji in Heq. injection Heq as Heq.
    apply (f_equal (.!! "emoji")) in Heq. revert Heq. attrs. congruence.
  - rewrite !ReactionType_parse_CustomEmoji in Heq. injection Heq as Heq.
    apply (f_equal (.!! "custom_emoji_id")) in Heq. revert Heq. attrs.
    congruence.
Qed.

(** X6. [write] is injective on the concrete variants: two of them that
    encode to the same wire value are equal. *)
Theorem write_injective client v1 v2 :
  concrete_variant v1 →
  concrete_variant v2 →
  call_write v1 client = call_write v2 client →
  v1 = v2.
Proof.
  intros [e1 | i1 | ] [e2 | i2 | ];
    rewrite ?write_Emoji, ?write_CustomEmoji, ?write_Paid;
    intros Heq; try reflexivity; try discriminate Heq.
  - apply (f_equal (λ m : result value, m ≫= λ w, getattr w "emoticon")) in Heq.
    change (Return (VStr e1) = Return (VStr e2)) in Heq. congruence.
  - apply (f_equal (λ m : result value, m ≫= λ w, getattr w "document_id")) in Heq.
    change (Return i1 = Return i2) in Heq. congruence.
Qed.


(** X13. Every object [ReactionType._parse] returns, on any input at
    all, can be encoded: [write] on it does not raise, and decoding the
    wire value it produces gives the object back. In particular the parser
    never returns an instance of the base class. *)
Theorem parsed_type_is_writable client w v :
  ReactionType._parse globals client w = Return v →
  v ≠ VNone →
  ∃ w',
    call_write v client = Return w'
    ∧ ReactionType._parse globals client w' = Return v.
Proof.
  intros Hp Hv.
  apply ReactionType_parse_inv in Hp
    as [-> | [(e & _ & ->) | [(i & _ & ->) | ->]]]; [done | | | ].
  - exists (raw.types.ReactionEmoji e). by rewrite write_Emoji.
  - exists (raw.types.ReactionCustomEmoji i). by rewrite write_CustomEmoji.
  - exists raw.types.ReactionPaid. by rewrite write_Paid.
Qed.

(** ** What the outer parsers return *)

(** X8. Whatever its input, [Reaction._parse] returns either [None] or a
    [Reaction] whose [type] is an instance of [ReactionType] and whose
    [count] and [chosen_order] are [None]; it never returns a [Reaction]
    without a type. *)
Theorem Reaction_parse_shape client w r :
  Reaction._parse globals client w = Return r →
  r = VNone
  ∨ (isinstance r cls_Reaction = true
     ∧ (∃ t, getattr r "type" = Return t
             ∧ isinstance t cls_ReactionType = true)
     ∧ getattr r "count" = Return VNone
     ∧ getattr r "chosen_order" = Return VNone).
Proof.
  intros Hp. apply Reaction_parse_inv in Hp as [-> | (t & -> & Ht)];
    [by left | right].
  split; [reflexivity | ]. split; [exists t; split; [attrs | done] | ].
  split; attrs.
Qed.

(** X9. Whatever its input, what [Reaction._parse_count] returns is a
    [Reaction] whose [count] and [chosen_order] are those attributes of the
    input record and whose [type] is an instance of [ReactionType]. *)
Theorem Reaction_parse_count_shape client reaction_count r :
  Reaction._parse_count globals client reaction_count = Return r →
  isinstance r cls_Reaction = true
  ∧ getattr reaction_count "count" = getattr r "count"
  ∧ getattr reaction_count "chosen_order" = getattr r "chosen_order"
  ∧ ∃ t, getattr r "type" = Return t ∧ isinstance t cls_ReactionType = true.
Proof.
  unfold Reaction._parse_count. intros Hp.
  destruct (getattr reaction_count "reaction") as [inner | ];
    [ | discriminate Hp].
  cbn in Hp.
  destruct (Reaction._parse globals client inner) as [r0 | ] eqn:Hinner;
    [ | discriminate Hp].
  cbn in Hp.
  destruct (getattr reaction_count "count") as [count | ];
    [ | discriminate Hp].
  apply Reaction_parse_inv in Hinner as [-> | (t & -> & Ht)];
    [discriminate Hp | ].
  cbn in Hp.
  destruct (getattr reaction_count "chosen_order") as [chosen_order | ];
    [ | discriminate Hp].
  injection Hp as <-.
  split; [reflexivity | ]. split; [attrs | ]. split; [attrs | ].
  exists t. split; [attrs | done].
Qed.

(** ** The constructors and their keywords *)

Lemma check_keywords_rejects params kw name x :
  keyword kw name = Some x →
  name ∉ params →
  check_keywords params kw = Raise (TypeError "unexpected keyword argument").
Proof.
  intros Hkw Hname. unfold check_keywords.
  assert (forallb (λ p : string * value, existsb (String.eqb p.1) params) kw
          = false) as ->; [ | done].
  induction kw as [ | [k y] kw IH]; [discriminate Hkw | ].
  cbn in Hkw |- *. destruct (String.eqb k name) eqn:Hk.
  - apply String.eqb_eq in Hk as ->.
    destruct (existsb (String.eqb name) params) eqn:Hex; [ | done].
    apply existsb_exists in Hex as (p & Hp & Heq).
    apply String.eqb_eq in Heq as <-. by apply list_elem_of_In in Hp.
  - rewrite (IH Hkw). apply andb_false_r.
Qed.

(** X10. Whatever keyword arguments they are called with, the
    constructors of the three subclasses build objects with at most one
    payload: [emoji] or [custom_emoji_id] is [None], and [type] is one of
    the strings "emoji", "custom_emoji" and "paid". *)
Theorem variant_constructors_one_payload kw v :
  ReactionTypeEmoji.call kw = Return v
  ∨ ReactionTypeCustomEmoji.call kw = Return v
  ∨ ReactionTypePaid.call kw = Return v →
  (getattr v "emoji" = Return VNone
   ∨ getattr v "custom_emoji_id" = Return VNone)
  ∧ ∃ s, getattr v "type" = Return (VStr s)
         ∧ s ∈ ["emoji"; "custom_emoji"; "paid"].
Proof.
  unfold ReactionTypeEmoji.call, ReactionTypeCustomEmoji.call,
    ReactionTypePaid.call.
  intros [Hc | [Hc | Hc]];
    (destruct (check_keywords _ kw); [ | discriminate Hc]);
    injection Hc as <-.
  - split; [right; attrs | ]. eexists. split; [attrs | set_solver].
  - split; [left; attrs | ]. eexists. split; [attrs | set_solver].
  - split; [left; attrs | ]. eexists. split; [attrs | set_solver].
Qed.

(** X11. [ReactionCount] declares [type], [total_count] and
    [chosen_order] without defaults: a call that omits one of them raises
    [TypeError]. *)
Theorem ReactionCount_requires_all kw :
  keyword kw "type" = None
  ∨ keyword kw "total_count" = None
  ∨ keyword kw "chosen_order" = None →
  ∃ what, ReactionCount.call kw = Raise (TypeError what).
Proof.
  unfold ReactionCount.call, required, check_keywords. intros Hmissing.
  destruct (forallb _ kw); [ | by eexists].
  cbn. destruct (keyword kw "type") as [t | ]; [ | by eexists].
  cbn. destruct (keyword kw "total_count") as [n | ]; [ | by eexists].
  cbn. destruct (keyword kw "chosen_order") as [o | ]; [ | by eexists].
  by destruct Hmissing as [? | [? | ?]].
Qed.

(** X12. [Reaction] accepts the keywords of its signature only: a call
    that passes another keyword, such as the [emoji] and
    [custom_emoji_id] its docstring lists, raises [TypeError]. *)
Theorem Reaction_rejects_undeclared_keyword kw name x :
  keyword kw name = Some x →
  name ∉ ["client"; "type"; "count"; "chosen_order"; "is_paid"] →
  Reaction.call kw = Raise (TypeError "unexpected keyword argument").
Proof.
  intros Hkw Hname. unfold Reaction.call.
  by rewrite (check_keywords_rejects _ _ _ _ Hkw Hname).
Qed.

End more_properties.

(** * The further properties on concrete inputs *)

Section more_witnesses.
#[local] Existing Instance Object_keeps_client.

Lemma Reaction_parse_type_agrees_witness :
  let w := raw.types.ReactionCustomEmoji (VInt 123456789012345) in
  known_wire w
  ∧ isinstance w raw_ReactionEmoji = false
  ∧ ∃ r t,
      Reaction._parse globals VNone w = Return r
      ∧ ReactionType._parse globals VNone w = Return t
      ∧ isinstance r cls_Reaction = true
      ∧ getattr r "type" = Return t
      ∧ getattr r "count" = Return VNone
      ∧ getattr r "chosen_order" = Return VNone.
Proof.
  split; [constructor | ]. split; [reflexivity | ].
  apply Reaction_parse_type_agrees; [constructor | reflexivity].
Defined.

Lemma Reaction_parse_count_constructs_witness :
  let inner := raw.types.ReactionPaid in
  known_wire inner
  ∧ isinstance inner raw_ReactionEmoji = false
  ∧ Reaction._parse_count globals VNone
      (raw.types.ReactionCount inner (VInt 42) VNone)
    = t ← ReactionType._parse globals VNone inner;
      Reaction.call
        [("client", VNone); ("type", t); ("count", VInt 42);
         ("chosen_order", VNone)].
Proof.
  split; [constructor | ]. split; [reflexivity | ].
  apply Reaction_parse_count_constructs; [constructor | reflexivity].
Defined.

Lemma ReactionCount_parse_fields_witness :
  let inner := raw.types.ReactionEmoji (VStr "👍") in
  let t :=
    VObj cls_ReactionTypeEmoji (ReactionTypeEmoji.__init__ (VStr "👍")) in
  ReactionType._parse globals VNone inner = Return t
  ∧ ∃ rc,
      ReactionCount._parse globals VNone
        (raw.types.ReactionCount inner (VInt 42) (VInt 3))
      = Return rc
      ∧ isinstance rc cls_ReactionCount = true
      ∧ getattr rc "type" = Return t
      ∧ getattr rc "total_count" = Return (VInt 42)
      ∧ getattr rc "chosen_order" = Return (VInt 3).
Proof.
  split; [reflexivity | ].
  apply ReactionCount_parse_fields; reflexivity.
Defined.

Lemma aggregate_parsers_agree_witness :
  let inner := raw.types.ReactionCustomEmoji (VInt 5368709120) in
  known_wire inner
  ∧ isinstance inner raw_ReactionEmoji = false
  ∧ ∃ r rc t,
      Reaction._parse_count globals VNone
        (raw.types.ReactionCount inner (VInt 42) (VInt 3))
      = Return r
      ∧ ReactionCount._parse globals VNone
          (raw.types.ReactionCount inner (VInt 42) (VInt 3))
        = Return rc
      ∧ getattr r "type" = Return t ∧ getattr rc "type" = Return t
      ∧ getattr r "count" = Return (VInt 42)
      ∧ getattr rc "total_count" = Return (VInt 42)
      ∧ getattr r "chosen_order" = Return (VInt 3)
      ∧ getattr rc "chosen_order" = Return (VInt 3).
Proof.
  split; [constructor | ]. split; [reflexivity | ].
  apply aggregate_parsers_agree; [constructor | reflexivity].
Defined.

Lemma ReactionType_parse_injective_witness :
  let w1 := raw.types.ReactionEmoji (VStr "👍") in
  let w2 := raw.types.ReactionEmoji (VStr "👍") in
  wire_reaction w1
  ∧ wire_reaction w2
  ∧ ReactionType._parse globals VNone w1 = ReactionType._parse globals VNone w2
  ∧ w1 = w2.
Proof.
  split; [right; constructor | ]. split; [right; constructor | ].
  split; [reflexivity | ].
  apply (ReactionType_parse_injective VNone);
    [right; constructor | right; constructor | reflexivity].
Defined.

Lemma write_injective_witness :
  let v1 := VObj cls_ReactionTypeCustomEmoji
              (ReactionTypeCustomEmoji.__init__ (VInt 7)) in
  let v2 := VObj cls_ReactionTypeCustomEmoji
              (ReactionTypeCustomEmoji.__init__ (VInt 7)) in
  concrete_variant v1
  ∧ concrete_variant v2
  ∧ call_write v1 VNone = call_write v2 VNone
  ∧ v1 = v2.
Proof.
  split; [constructor | ]. split; [constructor | ].
  split; [reflexivity | ].
  apply (write_injective VNone); [constructor | constructor | reflexivity].
Defined.


Lemma parsed_type_is_writable_witness :
  let w := raw.types.ReactionCustomEmoji (VInt 7) in
  let v := VObj cls_ReactionTypeCustomEmoji
             (ReactionTypeCustomEmoji.__init__ (VInt 7)) in
  ReactionType._parse globals VNone w = Return v
  ∧ v ≠ VNone
  ∧ ∃ w',
      call_write v VNone = Return w'
      ∧ ReactionType._parse globals VNone w' = Return v.
Proof.
  split; [reflexivity | ]. split; [discriminate | ].
  apply (parsed_type_is_writable VNone
           (raw.types.ReactionCustomEmoji (VInt 7)));
    [reflexivity | discriminate].
Defined.

Lemma Reaction_parse_shape_witness :
  let paid := VObj cls_ReactionTypePaid ReactionTypePaid.__init__ in
  let r := VObj cls_Reaction (Reaction.__init__ VNone paid VNone VNone VNone) in
  Reaction._parse globals VNone raw.types.ReactionPaid = Return r
  ∧ (r = VNone
     ∨ (isinstance r cls_Reaction = true
        ∧ (∃ t, getattr r "type" = Return t
                ∧ isinstance t cls_ReactionType = true)
        ∧ getattr r "count" = Return VNone
        ∧ getattr r "chosen_order" = Return VNone)).
Proof.
  split; [reflexivity | ].
  apply (Reaction_parse_shape VNone raw.types.ReactionPaid). reflexivity.
Defined.

Lemma Reaction_parse_count_shape_witness :
  let paid := VObj cls_ReactionTypePaid ReactionTypePaid.__init__ in
  let record := raw.types.ReactionCount raw.types.ReactionPaid (VInt 42) (VInt 3) in
  let r :=
    VObj cls_Reaction (Reaction.__init__ VNone paid (VInt 42) (VInt 3) VNone) in
  Reaction._parse_count globals VNone record = Return r
  ∧ isinstance r cls_Reaction = true
  ∧ getattr record "count" = getattr r "count"
  ∧ getattr record "chosen_order" = getattr r "chosen_order"
  ∧ ∃ t, getattr r "type" = Return t ∧ isinstance t cls_ReactionType = true.
Proof.
  split; [apply Reaction_parse_count_Paid | ].
  apply (Reaction_parse_count_shape VNone). apply Reaction_parse_count_Paid.
Defined.

Lemma variant_constructors_one_payload_witness :
  let kw := [("emoji", VStr "👍")] in
  let v :=
    VObj cls_ReactionTypeEmoji (ReactionTypeEmoji.__init__ (VStr "👍")) in
  (ReactionTypeEmoji.call kw = Return v
   ∨ ReactionTypeCustomEmoji.call kw = Return v
   ∨ ReactionTypePaid.call kw = Return v)
  ∧ (getattr v "emoji" = Return VNone
     ∨ getattr v "custom_emoji_id" = Return VNone)
  ∧ ∃ s, getattr v "type" = Return (VStr s)
         ∧ s ∈ ["emoji"; "custom_emoji"; "paid"].
Proof.
  split; [left; reflexivity | ].
  apply (variant_constructors_one_payload [("emoji", VStr "👍")]).
  left; reflexivity.
Defined.

Lemma ReactionCount_requires_all_witness :
  let kw := [("type", VNone); ("total_count", VInt 42)] in
  (keyword kw "type" = None
   ∨ keyword kw "total_count" = None
   ∨ keyword kw "chosen_order" = None)
  ∧ ∃ what, ReactionCount.call kw = Raise (TypeError what).
Proof.
  split; [right; right; reflexivity | ].
  apply ReactionCount_requires_all. right; right; reflexivity.
Defined.

Lemma Reaction_rejects_undeclared_keyword_witness :
  let kw := [("emoji", VStr "👍"); ("count", VInt 1)] in
  keyword kw "emoji" = Some (VStr "👍")
  ∧ ("emoji" ∉ ["client"; "type"; "count"; "chosen_order"; "is_paid"])
  ∧ Reaction.call kw = Raise (TypeError "unexpected keyword argument").
Proof.
  split; [reflexivity | ].
  split; [apply (bool_decide_unpack _); reflexivity | ].
  apply (Reaction_rejects_undeclared_keyword _ "emoji" (VStr "👍"));
    [reflexivity | apply (bool_decide_unpack _); reflexivity].
Defined.

End more_witnesses.
